(** * ripp: the upload / moderation glue of FileUploader and PostForm

    A shallow embedding of the three source files
      - src/components/shared/FileUploader.tsx   (module [FileUploader])
      - the second, older FileUploader           (module [Part000])
      - src/components/forms/PostForm.tsx        (module [PostForm])
    as programs of a small state-and-exception monad.  The external
    services (storage, database, inference API, text moderation API, the
    react-query mutations) are opaque: every answer they give, and every
    error they raise, is supplied by an environment [Env].  What the code
    decides is which calls are issued, with which arguments, in which
    order, and what happens to their errors; all of it is recorded in a
    trace of events. *)

From Stdlib Require Import String List Bool Arith Lia Floats.
Import ListNotations.
Local Open Scope string_scope.
Local Open Scope list_scope.

(** ** JavaScript values that cross the service boundary *)

(** A thrown value: either an [Error] object (with its [message]) or
    anything else; the handlers test [error instanceof Error]. *)
Inductive Thrown : Type :=
| ErrorObject (message : string)
| NonError (shown : string).

Inductive Outcome (A : Type) : Type :=
| Returned (a : A)
| Threw (e : Thrown).
Arguments Returned {A} a.
Arguments Threw {A} e.

(** The JSON payloads written by the code: strings, booleans, arrays. *)
Unset Elimination Schemes.
Inductive Json : Type :=
| JStr (s : string)
| JBool (b : bool)
| JArr (items : list Json).
Set Elimination Schemes.

(** An object literal, as its fields in source order. *)
Definition Obj : Type := list (string * Json).

Fixpoint field (key : string) (o : Obj) : option Json :=
  match o with
  | [] => None
  | (k, v) :: rest => if String.eqb k key then Some v else field key rest
  end.

Record File : Type := { file_name : string }.

(** [Models.File] and [Models.Document]: only [$id] is read. *)
Record StorageFile : Type := { file_id : string }.
Record Document : Type := { doc_id : string }.
Record DocumentList : Type := { documents : list Document }.

(** [Query.equal(attribute, value)]. *)
Inductive Query : Type :=
| Query_equal (attribute : string) (value : Json).

(** The inference API's answer: [response.data.predictions], which may be
    absent, and the [confidence] number of each prediction. *)
Record Prediction : Type := { confidence : float }.
Record MlResponse : Type := { predictions : option (list Prediction) }.

(** PostForm.tsx, [interface Match] and [interface FlaggedResponse]; the
    [drug] member is optional at run time ([response.data] is untyped). *)
Record Match : Type := {
  match_type : string;
  match_text : string;
  match_start : nat;
  match_end : nat
}.
Record DrugField : Type := { matches : list Match }.
Record FlaggedResponse : Type := {
  status : string;
  drug : option DrugField
}.

(** The post handed to PostForm ([Models.Document]): the members read. *)
Record Post : Type := {
  post_id : string;
  post_imageId : string;
  post_imageUrl : string
}.

Inductive Action : Type := Create | Update.

Definition action_name (a : Action) : string :=
  match a with Create => "Create" | Update => "Update" end.

(** [z.infer<typeof PostValidation>]. *)
Record FormValue : Type := {
  caption : string;
  file : list File;
  location : string;
  tags : string
}.

(** [{ ...value, userId, imageId }]. *)
Record INewPost : Type := {
  new_value : FormValue;
  new_userId : string;
  new_imageId : option string
}.

(** [{ ...value, postId, imageId, imageUrl }]. *)
Record IUpdatePost : Type := {
  upd_value : FormValue;
  upd_postId : string;
  upd_imageId : string;
  upd_imageUrl : string
}.

Record IUser : Type := {
  user_dollar_id : string;
  user_id : string;
  user_flag : bool
}.

(** ** External calls, their replies, and the trace *)

Inductive Call : Type :=
| StorageCreateFile (bucketId fileId : string) (f : option File)
| DbCreateDocument (databaseId collectionId documentId : string) (data : Obj)
| DbUpdateDocument (databaseId collectionId documentId : string) (data : Obj)
| DbListDocuments (databaseId collectionId : string) (queries : list Query)
| AxiosPostParams (url : string) (params : list (string * string))
| AxiosPostForm (url : string) (form : list (string * string))
| CreatePost (p : INewPost)
| UpdatePost (p : IUpdatePost).

Inductive Reply : Type :=
| FileReply (f : StorageFile)
| DocReply (d : Document)
| ListReply (l : DocumentList)
| MlReply (r : MlResponse)
| TextReply (r : FlaggedResponse)
| PostReply (p : option Post).

Inductive LogArg : Type :=
| LogThrown (e : Thrown)
| LogText (s : string).

Inductive Event : Type :=
| Started (c : Call)
| Resolved (c : Call) (r : Reply)
| Rejected (c : Call) (e : Thrown)
| SetFile (files : list File)
| FieldChange (files : list File)
| SetFileUrl (url : string)
| ConsoleError (label : string) (arg : LogArg)
| Toast (title : string) (description : option string)
| Navigate (path : string).

(** ** The environment: configuration and the services' behaviour *)

(** [import.meta.env]. *)
Record Config : Type := {
  VITE_APPWRITE_PROJECT_ID : string;
  VITE_APPWRITE_URL : string;
  VITE_APPWRITE_DATABASE_ID : string;
  VITE_APPWRITE_USER_COLLECTION_ID : string;
  VITE_APPWRITE_POST_COLLECTION_ID : string;
  VITE_APPWRITE_STORAGE_ID : string;
  VITE_APPWRITE_DB_ID : string;
  VITE_SIGHTENGINE_USER : string;
  VITE_SIGHTENGINE_SECRET : string
}.

(** Every external service is a function of the moment of the call (the
    number of external calls made before it) and of the call's arguments.
    [ID_unique] and [convertFileToUrl] are library code outside the
    repository and are taken as they come. *)
Record Env : Type := {
  ID_unique : nat -> string;
  convertFileToUrl : option File -> Outcome string;
  storage_createFile : nat -> string -> string -> option File -> Outcome StorageFile;
  databases_createDocument : nat -> string -> string -> string -> Obj -> Outcome Document;
  databases_updateDocument : nat -> string -> string -> string -> Obj -> Outcome Document;
  databases_listDocuments : nat -> string -> string -> list Query -> Outcome DocumentList;
  axios_post_params : nat -> string -> list (string * string) -> Outcome MlResponse;
  axios_post_form : nat -> string -> list (string * string) -> Outcome FlaggedResponse;
  createPost : nat -> INewPost -> Outcome (option Post);
  updatePost : nat -> IUpdatePost -> Outcome (option Post)
}.

(** ** The monad of handlers *)

Record Run : Type := { ticks : nat; log : list Event }.

Definition start : Run := {| ticks := 0; log := [] |}.

Definition Async (A : Type) : Type := Run -> Outcome A * Run.

Definition ret {A} (a : A) : Async A := fun s => (Returned a, s).

Definition throw {A} (e : Thrown) : Async A := fun s => (Threw e, s).

Definition bind {A B} (m : Async A) (k : A -> Async B) : Async B :=
  fun s =>
    match m s with
    | (Returned a, s') => k a s'
    | (Threw e, s') => (Threw e, s')
    end.

Definition try_catch {A} (body : Async A) (handler : Thrown -> Async A) : Async A :=
  fun s =>
    match body s with
    | (Returned a, s') => (Returned a, s')
    | (Threw e, s') => handler e s'
    end.

Definition emit (e : Event) : Async unit :=
  fun s => (Returned tt, {| ticks := ticks s; log := log s ++ [e] |}).

(** A synchronous library call that may throw. *)
Definition lift {A} (o : Outcome A) : Async A := fun s => (o, s).

(** The current moment, for [ID.unique()]. *)
Definition now : Async nat := fun s => (Returned (ticks s), s).

(** [await service(args)]: the call starts, the service answers, and only
    then does the handler go on. *)
Definition settle {R} (c : Call) (inj : R -> Reply) (o : Outcome R) : Event :=
  match o with
  | Returned r => Resolved c (inj r)
  | Threw e => Rejected c e
  end.

Definition await {R} (c : Call) (inj : R -> Reply) (answer : nat -> Outcome R) : Async R :=
  fun s =>
    let o := answer (ticks s) in
    (o, {| ticks := S (ticks s); log := log s ++ [Started c; settle c inj o] |}).

Declare Scope async_scope.
Delimit Scope async_scope with async.
Notation "x <- m ;; k" := (bind m (fun x => k))
  (at level 61, m at next level, right associativity) : async_scope.
Notation "m ;; k" := (bind m (fun _ => k))
  (at level 61, right associativity) : async_scope.
Local Open Scope async_scope.

(** [error instanceof Error ? error.message : fallback]. *)
Definition message_or (fallback : string) (error : Thrown) : string :=
  match error with
  | ErrorObject m => m
  | NonError _ => fallback
  end.

(** [a || b] on an optional string: [undefined] and [""] are falsy. *)
Definition js_or (a : option string) (b : string) : string :=
  match a with
  | Some s => if String.eqb s "" then b else s
  | None => b
  end.

Definition ML_API_URL : string := "https://detect.roboflow.com/drug_detection_project/9".
Definition ML_API_KEY : string := "Ajvqkk4nNlEiT1PUvWWD".

(** The view URL of a stored file (the template literal of [onDrop]). *)
Definition view_url (cfg : Config) (fileId : string) : string :=
  VITE_APPWRITE_URL cfg ++ "/storage/buckets/" ++ VITE_APPWRITE_STORAGE_ID cfg
    ++ "/files/" ++ fileId ++ "/view?project=" ++ VITE_APPWRITE_PROJECT_ID cfg.

(** [confidence * 100 > 50] on binary64 numbers. *)
Definition above_threshold (c : float) : bool :=
  PrimFloat.ltb 50%float (PrimFloat.mul c 100%float).

(** ** src/components/shared/FileUploader.tsx *)

Module FileUploader.

Record Props : Type := { userId : string }.

Section Component.
Variable env : Env.
Variable cfg : Config.
Variable props : Props.

Let APPWRITE_PROJECT_ID := VITE_APPWRITE_PROJECT_ID cfg.
Let APPWRITE_ENDPOINT := VITE_APPWRITE_URL cfg.
Let DATABASE_ID := VITE_APPWRITE_DATABASE_ID cfg.
Let USER_COLLECTION_ID := VITE_APPWRITE_USER_COLLECTION_ID cfg.
Let IMAGE_COLLECTION_ID := VITE_APPWRITE_POST_COLLECTION_ID cfg.
Let STORAGE_BUCKET_ID := VITE_APPWRITE_STORAGE_ID cfg.

Definition updateAppwriteFlags (userId imageId : string) (flagValue : bool) : Async unit :=
  try_catch
    ((* Update the specific user's flag *)
     _ <- await (DbUpdateDocument DATABASE_ID USER_COLLECTION_ID userId
                   [("flag", JBool flagValue)]) DocReply
            (fun t => databases_updateDocument env t DATABASE_ID USER_COLLECTION_ID userId
                        [("flag", JBool flagValue)]) ;;
     (* Update the specific image's flag *)
     _ <- await (DbUpdateDocument DATABASE_ID IMAGE_COLLECTION_ID imageId
                   [("flag", JBool flagValue)]) DocReply
            (fun t => databases_updateDocument env t DATABASE_ID IMAGE_COLLECTION_ID imageId
                        [("flag", JBool flagValue)]) ;;
     ret tt)
    (fun error =>
       emit (ConsoleError "Error updating flags in Appwrite:" (LogThrown error)) ;;
       match error with
       | ErrorObject m => emit (ConsoleError "Error details:" (LogText m))
       | NonError _ => ret tt
       end).

Definition onDrop (acceptedFiles : list File) : Async unit :=
  emit (SetFile acceptedFiles) ;;
  emit (FieldChange acceptedFiles) ;;
  localFileUrl <- lift (convertFileToUrl env (hd_error acceptedFiles)) ;;
  emit (SetFileUrl localFileUrl) ;;
  try_catch
    ((* Upload the file to Appwrite Storage *)
     t1 <- now ;;
     appwriteFile <- await (StorageCreateFile STORAGE_BUCKET_ID (ID_unique env t1)
                              (hd_error acceptedFiles)) FileReply
                       (fun t => storage_createFile env t STORAGE_BUCKET_ID (ID_unique env t1)
                                   (hd_error acceptedFiles)) ;;
     let fileId := file_id appwriteFile in
     let fileUrl := view_url cfg fileId in
     (* Create an image document with all required fields *)
     let data : Obj :=
       [("imageId", JStr fileId);
        ("imageUrl", JStr fileUrl);
        ("flag", JBool false);
        ("creator", JStr (userId props));
        ("caption", JStr "");
        ("likes", JArr []);
        ("tags", JArr [])] in
     t2 <- now ;;
     imageDocument <- await (DbCreateDocument DATABASE_ID IMAGE_COLLECTION_ID
                               (ID_unique env t2) data) DocReply
                        (fun t => databases_createDocument env t DATABASE_ID
                                    IMAGE_COLLECTION_ID (ID_unique env t2) data) ;;
     (* Perform the ML prediction *)
     let params := [("api_key", ML_API_KEY); ("image", fileUrl)] in
     response <- await (AxiosPostParams ML_API_URL params) MlReply
                   (fun t => axios_post_params env t ML_API_URL params) ;;
     match predictions response with
     | Some (p :: _) =>
         (* Check if confidence is greater than 50% *)
         if above_threshold (confidence p)
         then updateAppwriteFlags (userId props) (doc_id imageDocument) true
         else ret tt
     | Some [] => ret tt
     | None => ret tt
     end)
    (fun error =>
       emit (ConsoleError "Error uploading the file or fetching prediction:"
               (LogThrown error)) ;;
       match error with
       | ErrorObject m => emit (ConsoleError "Error details:" (LogText m))
       | NonError _ => ret tt
       end).

End Component.
End FileUploader.

(** ** The older FileUploader (no [userId] prop, no image document) *)

Module Part000.

Section Component.
Variable env : Env.
Variable cfg : Config.

Let APPWRITE_PROJECT_ID := VITE_APPWRITE_PROJECT_ID cfg.
Let APPWRITE_ENDPOINT := VITE_APPWRITE_URL cfg.
Let DATABASE_ID := VITE_APPWRITE_DATABASE_ID cfg.
Let USER_COLLECTION_ID := VITE_APPWRITE_USER_COLLECTION_ID cfg.
Let IMAGE_COLLECTION_ID := VITE_APPWRITE_POST_COLLECTION_ID cfg.
Let STORAGE_BUCKET_ID := VITE_APPWRITE_STORAGE_ID cfg.

Definition updateAppwriteFlags (flagValue : bool) : Async unit :=
  let queries := [Query_equal "flag" (JBool (negb flagValue))] in
  try_catch
    ((* Fetch the user document where the flag needs to be updated *)
     userResponse <- await (DbListDocuments DATABASE_ID USER_COLLECTION_ID queries) ListReply
                       (fun t => databases_listDocuments env t DATABASE_ID
                                   USER_COLLECTION_ID queries) ;;
     match documents userResponse with
     | first :: _ =>
         let userId := doc_id first in
         (* Update the user flag *)
         _ <- await (DbUpdateDocument DATABASE_ID USER_COLLECTION_ID userId
                       [("flag", JBool flagValue)]) DocReply
                (fun t => databases_updateDocument env t DATABASE_ID USER_COLLECTION_ID
                            userId [("flag", JBool flagValue)]) ;;
         ret tt
     | [] => ret tt
     end ;;
     (* Perform the same operation for the image collection *)
     imageResponse <- await (DbListDocuments DATABASE_ID IMAGE_COLLECTION_ID queries) ListReply
                        (fun t => databases_listDocuments env t DATABASE_ID
                                    IMAGE_COLLECTION_ID queries) ;;
     match documents imageResponse with
     | first :: _ =>
         let imageId := doc_id first in
         (* Update the image flag *)
         _ <- await (DbUpdateDocument DATABASE_ID IMAGE_COLLECTION_ID imageId
                       [("flag", JBool flagValue)]) DocReply
                (fun t => databases_updateDocument env t DATABASE_ID IMAGE_COLLECTION_ID
                            imageId [("flag", JBool flagValue)]) ;;
         ret tt
     | [] => ret tt
     end)
    (fun error =>
       emit (ConsoleError "Error updating flags in Appwrite:" (LogThrown error))).

Definition onDrop (acceptedFiles : list File) : Async unit :=
  emit (SetFile acceptedFiles) ;;
  emit (FieldChange acceptedFiles) ;;
  fileUrl0 <- lift (convertFileToUrl env (hd_error acceptedFiles)) ;;
  emit (SetFileUrl fileUrl0) ;;
  try_catch
    (appwriteFile <- await (StorageCreateFile STORAGE_BUCKET_ID "unique()"
                              (hd_error acceptedFiles)) FileReply
                       (fun t => storage_createFile env t STORAGE_BUCKET_ID "unique()"
                                   (hd_error acceptedFiles)) ;;
     let fileId := file_id appwriteFile in
     let fileUrl := view_url cfg fileId in
     let params := [("api_key", ML_API_KEY); ("image", fileUrl)] in
     response <- await (AxiosPostParams ML_API_URL params) MlReply
                   (fun t => axios_post_params env t ML_API_URL params) ;;
     match predictions response with
     | Some (p :: _) =>
         if above_threshold (confidence p)
         then updateAppwriteFlags true
         else ret tt
     | Some [] => ret tt
     | None => ret tt
     end)
    (fun error =>
       emit (ConsoleError "Error uploading the file or fetching prediction:"
               (LogThrown error))).

End Component.
End Part000.

(** ** src/components/forms/PostForm.tsx *)

Module PostForm.

Record Props : Type := { post : option Post; action : Action }.

Definition MODERATION_URL : string := "https://api.sightengine.com/1.0/text/check.json".

Section Component.
Variable env : Env.
Variable cfg : Config.
Variable props : Props.
Variable user : IUser.

(** [toast({ title, description })]. *)
Definition toast (title : string) (description : option string) : Async unit :=
  emit (Toast title description).

Definition navigate (path : string) : Async unit := emit (Navigate path).

(** Function to check for prohibited content using the moderation API. *)
Definition checkForProhibitedContent (caption : string) : Async bool :=
  let data :=
    [("text", caption);
     ("lang", "en");
     ("categories", "drug");
     ("mode", "rules");
     ("api_user", VITE_SIGHTENGINE_USER cfg);
     ("api_secret", VITE_SIGHTENGINE_SECRET cfg)] in
  try_catch
    (response <- await (AxiosPostForm MODERATION_URL data) TextReply
                   (fun t => axios_post_form env t MODERATION_URL data) ;;
     match drug response with
     | Some d =>
         (* Check if any matches are found related to drugs *)
         ret (existsb (fun m => String.eqb (match_type m) "drug") (matches d))
     | None =>
         throw (ErrorObject "Cannot read properties of undefined (reading 'matches')")
     end)
    (fun error =>
       let errorMessage := message_or "Unknown error" error in
       toast "Content check failed" (Some errorMessage) ;;
       ret false (* Assume no prohibited content if an error occurs *)).

(** Function to update user flag in Appwrite. *)
Definition updateUserFlag (userId : string) : Async unit :=
  try_catch
    (_ <- await (DbUpdateDocument (VITE_APPWRITE_DB_ID cfg) "Users" userId
                   [("flag", JBool true)]) DocReply
            (fun t => databases_updateDocument env t (VITE_APPWRITE_DB_ID cfg) "Users" userId
                        [("flag", JBool true)]) ;;
     ret tt)
    (fun error =>
       let errorMessage := message_or "Unknown error" error in
       toast "User flag update failed" (Some errorMessage)).

(** Function to handle file upload to Appwrite. *)
Definition uploadFile (f : File) : Async StorageFile :=
  try_catch
    (await (StorageCreateFile (VITE_APPWRITE_STORAGE_ID cfg) "unique()" (Some f)) FileReply
       (fun t => storage_createFile env t (VITE_APPWRITE_STORAGE_ID cfg) "unique()" (Some f)))
    (fun error =>
       let errorMessage := message_or "File upload failed." error in
       toast "File upload failed." (Some errorMessage) ;;
       throw error (* Rethrow the error after logging it *)).

(** Handler for form submission. *)
Definition handleSubmit (value : FormValue) : Async unit :=
  (* Check for prohibited content in the caption *)
  flagged <- checkForProhibitedContent (caption value) ;;
  (* If flagged, update user's flag status *)
  (if flagged : bool then updateUserFlag (user_dollar_id user) else ret tt) ;;
  (* Handle file upload if a file is selected *)
  fileId <- match file value with
            | f :: _ =>
                fileUploadResponse <- uploadFile f ;;
                ret (Some (file_id fileUploadResponse))
            | [] => ret None
            end ;;
  match post props, action props with
  | Some p, Update =>
      let payload :=
        {| upd_value := value;
           upd_postId := post_id p;
           upd_imageId := js_or fileId (post_imageId p);
           upd_imageUrl := post_imageUrl p |} in
      updatedPost <- await (UpdatePost payload) PostReply
                       (fun t => updatePost env t payload) ;;
      match updatedPost with
      | None => toast (action_name (action props) ++ " post failed. Please try again.") None
      | Some _ => ret tt
      end ;;
      navigate ("/posts/" ++ post_id p)
  | _, _ =>
      let payload :=
        {| new_value := value;
           new_userId := user_dollar_id user;
           new_imageId := fileId |} in
      newPost <- await (CreatePost payload) PostReply
                   (fun t => createPost env t payload) ;;
      match newPost with
      | None => toast (action_name (action props) ++ " post failed. Please try again.") None
      | Some _ => ret tt
      end ;;
      navigate "/"
  end.

End Component.
End PostForm.

(** ** Observing a handler's run *)

Definition result_of {A} (m : Async A) : Outcome A := fst (m start).
Definition trace_of {A} (m : Async A) : list Event := log (snd (m start)).

(** The external calls of a trace, in the order they were started. *)
Fixpoint calls_of (tr : list Event) : list Call :=
  match tr with
  | [] => []
  | Started c :: rest => c :: calls_of rest
  | _ :: rest => calls_of rest
  end.

(** The document writes [updateDocument(_, collection, id, data)] of a
    trace, as (collection, id, data). *)
Fixpoint updates_of (tr : list Event) : list (string * string * Obj) :=
  match tr with
  | [] => []
  | Started (DbUpdateDocument _ coll id data) :: rest => (coll, id, data) :: updates_of rest
  | _ :: rest => updates_of rest
  end.

(** Any invocation of a top-level handler of the code base. *)
Inductive Invocation : Type :=
| DropOnFileUploader (props : FileUploader.Props) (acceptedFiles : list File)
| DropOnPart000 (acceptedFiles : list File)
| SubmitPostForm (props : PostForm.Props) (user : IUser) (value : FormValue).

Definition handle (env : Env) (cfg : Config) (inv : Invocation) : Async unit :=
  match inv with
  | DropOnFileUploader props files => FileUploader.onDrop env cfg props files
  | DropOnPart000 files => Part000.onDrop env cfg files
  | SubmitPostForm props user value => PostForm.handleSubmit env cfg props user value
  end.

(** What a call writes to a flag, if anything: on an existing document
    ([true], an update) or on a new one ([false], a creation). *)
Definition flag_written (c : Call) : option (bool * Json) :=
  match c with
  | DbUpdateDocument _ _ _ data =>
      match field "flag" data with Some v => Some (true, v) | None => None end
  | DbCreateDocument _ _ _ data =>
      match field "flag" data with Some v => Some (false, v) | None => None end
  | _ => None
  end.


(** The payload [{ flag: true }]. *)
Definition flag_true : Obj := [("flag", JBool true)].

(** The form posted to the moderation endpoint for a caption. *)
Definition moderation_form (cfg : Config) (text : string) : list (string * string) :=
  [("text", text);
   ("lang", "en");
   ("categories", "drug");
   ("mode", "rules");
   ("api_user", VITE_SIGHTENGINE_USER cfg);
   ("api_secret", VITE_SIGHTENGINE_SECRET cfg)].

(** Events of the component itself, as opposed to the three events of an
    external call. *)
Definition is_local (ev : Event) : bool :=
  match ev with
  | Started _ | Resolved _ _ | Rejected _ _ => false
  | _ => true
  end.

(** A trace is sequential when every call that starts is settled (resolved
    or rejected) by the very next event: no call starts while another one
    is pending. *)
Inductive Sequential : list Event -> Prop :=
| Seq_nil : Sequential []
| Seq_resolved c r rest : Sequential rest -> Sequential (Started c :: Resolved c r :: rest)
| Seq_rejected c e rest : Sequential rest -> Sequential (Started c :: Rejected c e :: rest)
| Seq_local ev rest : is_local ev = true -> Sequential rest -> Sequential (ev :: rest).

(** A handler is orderly when it keeps a sequential trace sequential. *)
Definition Orderly {A} (m : Async A) : Prop :=
  forall s, Sequential (log s) -> Sequential (log (snd (m s))).

(** The stages of a submission. *)
Inductive Step : Type := Moderation | UserFlagUpdate | FileUpload | PostWrite.

Definition step_of (c : Call) : option Step :=
  match c with
  | AxiosPostForm _ _ => Some Moderation
  | DbUpdateDocument _ _ _ _ => Some UserFlagUpdate
  | StorageCreateFile _ _ _ => Some FileUpload
  | CreatePost _ | UpdatePost _ => Some PostWrite
  | _ => None
  end.

(** The stage list of a submission: the caption check, the user-flag
    update if the caption was flagged, the upload if a file is selected,
    and the post write unless the upload failed. *)
Definition stages (flagged has_file upload_ok : bool) : list Step :=
  [Moderation]
    ++ (if flagged then [UserFlagUpdate] else [])
    ++ (if has_file then [FileUpload] else [])
    ++ (if upload_ok then [PostWrite] else []).

Definition has_file (value : FormValue) : bool :=
  match file value with [] => false | _ :: _ => true end.

(** ** Concrete configuration, services and runs *)

Definition cfg0 : Config :=
  {| VITE_APPWRITE_PROJECT_ID := "proj";
     VITE_APPWRITE_URL := "https://cloud.appwrite.io/v1";
     VITE_APPWRITE_DATABASE_ID := "db";
     VITE_APPWRITE_USER_COLLECTION_ID := "users";
     VITE_APPWRITE_POST_COLLECTION_ID := "posts";
     VITE_APPWRITE_STORAGE_ID := "bucket";
     VITE_APPWRITE_DB_ID := "db";
     VITE_SIGHTENGINE_USER := "api-user";
     VITE_SIGHTENGINE_SECRET := "api-secret" |}.

Definition photo : File := {| file_name := "photo.png" |}.
Definition alice : IUser :=
  {| user_dollar_id := "alice"; user_id := "alice"; user_flag := false |}.
Definition as_alice : FileUploader.Props := {| FileUploader.userId := "alice" |}.
Definition old_post : Post :=
  {| post_id := "p1"; post_imageId := "img-old"; post_imageUrl := "https://cdn/img-old" |}.
Definition new_post_form : PostForm.Props :=
  {| PostForm.post := None; PostForm.action := Create |}.
Definition edit_post_form : PostForm.Props :=
  {| PostForm.post := Some old_post; PostForm.action := Update |}.

Definition drug_match : Match :=
  {| match_type := "drug"; match_text := "weed"; match_start := 0; match_end := 4 |}.

(** Two documents nobody has flagged yet: another user, an older image. *)
Definition unflagged (collectionId : string) : list Document :=
  if String.eqb collectionId "users" then [{| doc_id := "bob" |}]
  else if String.eqb collectionId "posts" then [{| doc_id := "d0" |}]
  else [].

Definition nothing_unflagged (collectionId : string) : list Document := [].

(** Services that all succeed: the inference API reports [conf], the
    moderation API reports [found], a listing of a collection returns
    [listed collection]. *)
Definition services (conf : float) (found : list Match)
    (listed : string -> list Document) : Env :=
  {| ID_unique := fun _ => "fresh";
     convertFileToUrl := fun _ => Returned "blob:local";
     storage_createFile := fun _ _ _ _ => Returned {| file_id := "f1" |};
     databases_createDocument := fun _ _ _ _ _ => Returned {| doc_id := "d1" |};
     databases_updateDocument := fun _ _ _ id _ => Returned {| doc_id := id |};
     databases_listDocuments := fun _ _ coll _ => Returned {| documents := listed coll |};
     axios_post_params := fun _ _ _ =>
       Returned {| predictions := Some [{| confidence := conf |}] |};
     axios_post_form := fun _ _ _ =>
       Returned {| status := "success"; drug := Some {| matches := found |} |};
     createPost := fun _ _ => Returned (Some old_post);
     updatePost := fun _ _ => Returned (Some old_post) |}.

(** The same services with one of them out of order. *)
Definition database_rejects_writes (env : Env) : Env :=
  {| ID_unique := ID_unique env;
     convertFileToUrl := convertFileToUrl env;
     storage_createFile := storage_createFile env;
     databases_createDocument := databases_createDocument env;
     databases_updateDocument := fun _ _ _ _ _ => Threw (ErrorObject "document not found");
     databases_listDocuments := databases_listDocuments env;
     axios_post_params := axios_post_params env;
     axios_post_form := axios_post_form env;
     createPost := createPost env;
     updatePost := updatePost env |}.

Definition storage_down (env : Env) : Env :=
  {| ID_unique := ID_unique env;
     convertFileToUrl := convertFileToUrl env;
     storage_createFile := fun _ _ _ _ => Threw (ErrorObject "network error");
     databases_createDocument := databases_createDocument env;
     databases_updateDocument := databases_updateDocument env;
     databases_listDocuments := databases_listDocuments env;
     axios_post_params := axios_post_params env;
     axios_post_form := axios_post_form env;
     createPost := createPost env;
     updatePost := updatePost env |}.

Definition moderation_down (env : Env) : Env :=
  {| ID_unique := ID_unique env;
     convertFileToUrl := convertFileToUrl env;
     storage_createFile := storage_createFile env;
     databases_createDocument := databases_createDocument env;
     databases_updateDocument := databases_updateDocument env;
     databases_listDocuments := databases_listDocuments env;
     axios_post_params := axios_post_params env;
     axios_post_form := fun _ _ _ => Threw (ErrorObject "timeout");
     createPost := createPost env;
     updatePost := updatePost env |}.

Definition caption_only (text : string) : FormValue :=
  {| caption := text; file := []; location := "Paris"; tags := "art" |}.

Definition submission_with_photo : FormValue :=
  {| caption := "sunset"; file := [photo]; location := "Paris"; tags := "art" |}.

Definition drop_below_threshold : Async unit :=
  FileUploader.onDrop (services 0.25 [] nothing_unflagged) cfg0 as_alice [photo].

Definition drop_above_threshold : Async unit :=
  FileUploader.onDrop (services 0.75 [] unflagged) cfg0 as_alice [photo].




Definition flagged_submission : Async unit :=
  PostForm.handleSubmit (services 0.25 [drug_match] nothing_unflagged) cfg0
    new_post_form alice (caption_only "weed for sale").

Definition submission_while_storage_down : Async unit :=
  PostForm.handleSubmit (storage_down (services 0.25 [] nothing_unflagged)) cfg0
    new_post_form alice submission_with_photo.

Definition submission_while_moderation_down : Async unit :=
  PostForm.handleSubmit (moderation_down (services 0.25 [drug_match] nothing_unflagged)) cfg0
    new_post_form alice (caption_only "weed for sale").

Definition created_by_drop : Obj :=
  [("imageId", JStr "f1");
   ("imageUrl",
    JStr "https://cloud.appwrite.io/v1/storage/buckets/bucket/files/f1/view?project=proj");
   ("flag", JBool false);
   ("creator", JStr "alice");
   ("caption", JStr "");
   ("likes", JArr []);
   ("tags", JArr [])].

(** ** Further observations, for the properties beyond the claims *)

(** Either uploader: the one of FileUploader.tsx, with its props, or the
    older one. *)
Inductive Uploader : Type :=
| Current (props : FileUploader.Props)
| Older.

Definition drop (env : Env) (cfg : Config) (u : Uploader) (files : list File) : Async unit :=
  match u with
  | Current props => FileUploader.onDrop env cfg props files
  | Older => Part000.onDrop env cfg files
  end.






(** The component state changes of the uploader ([setFile], [fieldChange],
    [setFileUrl]), the navigations and the toasts of a trace. *)
Definition is_state_change (ev : Event) : bool :=
  match ev with
  | SetFile _ | FieldChange _ | SetFileUrl _ => true
  | _ => false
  end.

Definition is_navigate (ev : Event) : bool :=
  match ev with Navigate _ => true | _ => false end.

Definition is_upload (c : Call) : bool :=
  match c with StorageCreateFile _ _ _ => true | _ => false end.

(** A moderation service whose answer has no [drug] member. *)
Definition moderation_without_drug (env : Env) : Env :=
  {| ID_unique := ID_unique env;
     convertFileToUrl := convertFileToUrl env;
     storage_createFile := storage_createFile env;
     databases_createDocument := databases_createDocument env;
     databases_updateDocument := databases_updateDocument env;
     databases_listDocuments := databases_listDocuments env;
     axios_post_params := axios_post_params env;
     axios_post_form := fun _ _ _ => Returned {| status := "success"; drug := None |};
     createPost := createPost env;
     updatePost := updatePost env |}.

(** A form in Update mode that was given no post. *)
Definition update_form_without_post : PostForm.Props :=
  {| PostForm.post := None; PostForm.action := Update |}.

Definition all_fine : Env := services 0.25 [] nothing_unflagged.





(** A caption flagged by the check, a photo selected, storage out of order. *)
Definition flagged_submission_while_storage_down : Async unit :=
  PostForm.handleSubmit (storage_down (services 0.25 [drug_match] nothing_unflagged)) cfg0
    new_post_form alice
    {| caption := "weed for sale"; file := [photo]; location := "Paris"; tags := "art" |}.

(** Two files dropped at once. *)
Definition second_photo : File := {| file_name := "second.png" |}.

(** ** Proof automation: a handler is run symbolically, once, branching on
    every answer of the environment *)

Ltac unfold_handlers_in H :=
  unfold start,
    FileUploader.onDrop, FileUploader.updateAppwriteFlags,
    Part000.onDrop, Part000.updateAppwriteFlags,
    PostForm.handleSubmit, PostForm.checkForProhibitedContent,
    PostForm.updateUserFlag, PostForm.uploadFile, PostForm.toast, PostForm.navigate,
    bind, try_catch, await, emit, lift, now, ret, throw, settle in H.

Ltac atomic x :=
  lazymatch x with
  | context [match _ with _ => _ end] => fail
  | _ => idtac
  end.

(** One step: the innermost test that blocks [H] is decided, by an
    equation already at hand or else by cases. *)
Ltac branch_in H :=
  match type of H with
  | context [match ?x with _ => _ end] =>
      atomic x;
      first [ match goal with E : x = _ |- _ => rewrite E in H end
            | destruct x eqn:? ];
      simpl in H
  end.

Ltac evaluate_in H := unfold_handlers_in H; simpl in H; repeat branch_in H.

(** Every run [m start] of the goal and of the hypotheses is named,
    evaluated on its own, and put back. *)
Ltac run_one :=
  let r := fresh "r" in
  let Hr := fresh "Hr" in
  match goal with
  | |- context [?m start] => remember (m start) as r eqn:Hr in *
  | H : context [?m start] |- _ => remember (m start) as r eqn:Hr in *
  end;
  evaluate_in Hr; subst r.

Ltac run :=
  unfold result_of, trace_of in *; simpl handle in *; repeat run_one; simpl in *.

(** The run of one handler [m], when a statement speaks of several: the
    tests it decides stay decided for the runs evaluated after it. *)
Ltac run_of m :=
  unfold result_of, trace_of in *;
  let r := fresh "r" in
  let Hr := fresh "Hr" in
  remember (m start) as r eqn:Hr in *;
  evaluate_in Hr; subst r; simpl in *.

Ltac pick_event H :=
  repeat (destruct H as [H | H]; [try discriminate H; try (inversion H; subst; clear H) | ]);
  try contradiction.

Ltac found := simpl; solve [repeat first [left; reflexivity | right]].

(** The same search, but able to go back on its choice of event. *)
Ltac found_again := simpl; let rec go := (left; reflexivity) + (right; go) in go.




(** * Lemmas and theorems *)

(** ** Worked runs *)

(** The threshold on binary64 numbers: one half does not pass, the next
    number does, a missing confidence (NaN) does not. *)
Example threshold_at_half : above_threshold 0.5 = false.
Proof. reflexivity. Qed.

Example threshold_just_above_half : above_threshold (next_up 0.5) = true.
Proof. reflexivity. Qed.

Example threshold_at_nan : above_threshold nan = false.
Proof. reflexivity. Qed.

Example calls_of_drop_above_threshold :
  calls_of (trace_of drop_above_threshold)
    = [StorageCreateFile "bucket" "fresh" (Some photo);
       DbCreateDocument "db" "posts" "fresh" created_by_drop;
       AxiosPostParams ML_API_URL
         [("api_key", ML_API_KEY);
          ("image",
           "https://cloud.appwrite.io/v1/storage/buckets/bucket/files/f1/view?project=proj")];
       DbUpdateDocument "db" "users" "alice" flag_true;
       DbUpdateDocument "db" "posts" "d1" flag_true].
Proof. reflexivity. Qed.

Example updates_of_drop_below_threshold :
  updates_of (trace_of drop_below_threshold) = [].
Proof. reflexivity. Qed.

Example stages_of_flagged_submission :
  map step_of (calls_of (trace_of flagged_submission))
    = [Some Moderation; Some UserFlagUpdate; Some PostWrite].
Proof. reflexivity. Qed.

Example js_or_examples :
  js_or None "img-old" = "img-old" /\
  js_or (Some "") "img-old" = "img-old" /\
  js_or (Some "f1") "img-old" = "f1".
Proof. repeat split. Qed.

(** ** Flags are only ever raised (C9) *)

(** C9: in every run of every handler, a document update writes exactly
    [{ flag: true }], and the only call that writes [flag: false] is the
    creation of the image document; no call clears a flag on an existing
    document. *)
Theorem flag_never_cleared :
  forall env cfg inv c,
    In (Started c) (trace_of (handle env cfg inv)) ->
    match c with
    | DbUpdateDocument _ _ _ data => data = flag_true
    | DbCreateDocument _ _ _ data => field "flag" data = Some (JBool false)
    | _ => True
    end /\
    flag_written c <> Some (true, JBool false).
Proof.
  intros env cfg inv c H.
  destruct inv as [props files | files | props user value]; simpl in H.
  - run; pick_event H; simpl; split; try reflexivity; try exact I; discriminate.
  - run; pick_event H; simpl; split; try reflexivity; try exact I; discriminate.
  - run; pick_event H; simpl; split; try reflexivity; try exact I; discriminate.
Qed.

Lemma flag_never_cleared_witness :
  In (Started (DbUpdateDocument "db" "users" "alice" flag_true))
     (trace_of (handle (services 0.75 [] unflagged) cfg0
                  (DropOnFileUploader as_alice [photo]))) /\
  (flag_true = flag_true /\
   flag_written (DbUpdateDocument "db" "users" "alice" flag_true)
     <> Some (true, JBool false)).
Proof.
  assert (H : In (Started (DbUpdateDocument "db" "users" "alice" flag_true))
                (trace_of (handle (services 0.75 [] unflagged) cfg0
                             (DropOnFileUploader as_alice [photo]))))
    by (vm_compute; do 9 right; left; reflexivity).
  split; [exact H | ].
  exact (flag_never_cleared (services 0.75 [] unflagged) cfg0
           (DropOnFileUploader as_alice [photo]) _ H).
Defined.

(** ** The image document created by a drop (C6) *)



(** ** Updating a post without a new file (C10) *)

(** C10: when an existing post is edited ([action] is Update) and no file
    is selected, [handleSubmit] calls [updatePost] with the post's own
    [imageId] and [imageUrl] (and its [$id]), and with no other payload;
    it never calls [createPost]. *)
Theorem update_without_file_keeps_image :
  forall env cfg p user value,
    file value = [] ->
    let tr := trace_of (PostForm.handleSubmit env cfg
                          {| PostForm.post := Some p; PostForm.action := Update |}
                          user value) in
    In (Started (UpdatePost {| upd_value := value;
                               upd_postId := post_id p;
                               upd_imageId := post_imageId p;
                               upd_imageUrl := post_imageUrl p |})) tr /\
    (forall payload, In (Started (UpdatePost payload)) tr ->
       upd_imageId payload = post_imageId p /\
       upd_imageUrl payload = post_imageUrl p) /\
    (forall payload, ~ In (Started (CreatePost payload)) tr).
Proof.
  intros env cfg p user value Hfile tr. subst tr.
  run; (split; [found | split]);
    intros payload H; pick_event H; split; reflexivity.
Qed.

Lemma update_without_file_keeps_image_witness :
  file (caption_only "hello") = [] /\
  In (Started (UpdatePost {| upd_value := caption_only "hello";
                             upd_postId := "p1";
                             upd_imageId := "img-old";
                             upd_imageUrl := "https://cdn/img-old" |}))
     (trace_of (PostForm.handleSubmit (services 0.25 [] nothing_unflagged) cfg0
                  edit_post_form alice (caption_only "hello"))).
Proof.
  split; [reflexivity | ].
  exact (proj1 (update_without_file_keeps_image (services 0.25 [] nothing_unflagged) cfg0
                  old_post alice (caption_only "hello") eq_refl)).
Defined.

(** ** The caption check (C7, C5) *)

(** C7: [checkForProhibitedContent] makes one call, to the text moderation
    endpoint, with the caption as [text] and [lang=en], [categories=drug],
    [mode=rules] (and the account's credentials), and settles it with what
    the service answered; it always returns, and it returns [true] exactly
    when the service answered and the answer's [drug.matches] holds a
    match of type "drug". *)
Theorem checkForProhibitedContent_spec :
  forall env cfg text,
    let check := PostForm.checkForProhibitedContent env cfg text in
    let call := AxiosPostForm PostForm.MODERATION_URL (moderation_form cfg text) in
    let answer := axios_post_form env 0 PostForm.MODERATION_URL (moderation_form cfg text) in
    calls_of (trace_of check) = [call] /\
    firstn 2 (trace_of check) = [Started call; settle call TextReply answer] /\
    (exists b, result_of check = Returned b) /\
    (result_of check = Returned true <->
     exists response d m,
       answer = Returned response /\
       drug response = Some d /\
       In m (matches d) /\
       match_type m = "drug") /\
    (result_of check = Returned true <->
     exists response d m,
       In (Resolved call (TextReply response)) (trace_of check) /\
       drug response = Some d /\
       In m (matches d) /\
       match_type m = "drug").
Proof.
  intros env cfg text check call answer. subst check call answer.
  unfold moderation_form, result_of, trace_of.
  remember (PostForm.checkForProhibitedContent env cfg text start) as r eqn:Hr.
  unfold_handlers_in Hr. simpl in Hr.
  destruct (axios_post_form env 0 _ _) as [response | e] eqn:Hcall; simpl in Hr.
  - destruct (drug response) as [d | ] eqn:Hdrug; simpl in Hr; subst r; simpl.
    + split; [reflexivity | split; [reflexivity | split; [eexists; reflexivity | ]]].
      assert (Hiff : Returned (existsb (fun m => String.eqb (match_type m) "drug") (matches d))
                     = Returned true <->
                     exists m, In m (matches d) /\ match_type m = "drug").
      { split.
        - intros Hres. injection Hres as Hex.
          apply existsb_exists in Hex. destruct Hex as (m & Hin & Hty).
          apply String.eqb_eq in Hty. exists m. split; assumption.
        - intros (m & Hin & Hty). f_equal. apply existsb_exists.
          exists m. split; [exact Hin | apply String.eqb_eq; exact Hty]. }
      split; (split;
        [ intros Hres; apply Hiff in Hres; destruct Hres as (m & Hin & Hty);
          exists response, d, m; repeat split; auto
        | intros (response' & d' & m & Hans & Hd & Hm & Hty); apply Hiff ]).
      * injection Hans as <-. rewrite Hdrug in Hd. injection Hd as <-.
        exists m. split; assumption.
      * pick_event Hans. rewrite Hdrug in Hd. injection Hd as <-.
        exists m. split; assumption.
    + split; [reflexivity | split; [reflexivity | split; [eexists; reflexivity | ]]].
      split; (split; [discriminate | ]).
      * intros (response' & d' & m & Hans & Hd & _). congruence.
      * intros (response' & d' & m & Hin & Hd & _). pick_event Hin. congruence.
  - subst r; simpl.
    split; [reflexivity | split; [reflexivity | split; [eexists; reflexivity | ]]].
    split; (split; [discriminate | ]).
    + intros (response' & d' & m & Hans & _). discriminate Hans.
    + intros (response' & d' & m & Hin & _). pick_event Hin.
Qed.

(** C5: when the moderation request raises an error,
    [checkForProhibitedContent] returns [false], a toast reports the
    failure, and [handleSubmit] for that caption updates no document (so
    the user's flag is left alone). *)
Theorem moderation_failure_assumes_false :
  forall env cfg props user value url form e,
    In (Rejected (AxiosPostForm url form) e)
       (trace_of (PostForm.checkForProhibitedContent env cfg (caption value))) ->
    result_of (PostForm.checkForProhibitedContent env cfg (caption value)) = Returned false /\
    In (Toast "Content check failed" (Some (message_or "Unknown error" e)))
       (trace_of (PostForm.checkForProhibitedContent env cfg (caption value))) /\
    updates_of (trace_of (PostForm.handleSubmit env cfg props user value)) = [].
Proof.
  intros env cfg props user value url form e H.
  run_of (PostForm.checkForProhibitedContent env cfg (caption value)); pick_event H.
  run_of (PostForm.handleSubmit env cfg props user value);
    (split; [reflexivity | split; [found | reflexivity]]).
Qed.

Lemma moderation_failure_assumes_false_witness :
  In (Rejected (AxiosPostForm PostForm.MODERATION_URL (moderation_form cfg0 "weed for sale"))
        (ErrorObject "timeout"))
     (trace_of (PostForm.checkForProhibitedContent
                  (moderation_down (services 0.25 [drug_match] nothing_unflagged)) cfg0
                  (caption (caption_only "weed for sale")))) /\
  updates_of (trace_of submission_while_moderation_down) = [].
Proof.
  assert (H : In (Rejected (AxiosPostForm PostForm.MODERATION_URL
                              (moderation_form cfg0 "weed for sale"))
                    (ErrorObject "timeout"))
                (trace_of (PostForm.checkForProhibitedContent
                             (moderation_down (services 0.25 [drug_match] nothing_unflagged))
                             cfg0 (caption (caption_only "weed for sale")))))
    by (vm_compute; right; left; reflexivity).
  split; [exact H | ].
  exact (proj2 (proj2 (moderation_failure_assumes_false
                         (moderation_down (services 0.25 [drug_match] nothing_unflagged))
                         cfg0 new_post_form alice (caption_only "weed for sale") _ _ _ H))).
Defined.

(** ** Order of the calls of a submission (C8, C2) *)

Lemma Sequential_app l1 l2 :
  Sequential l1 -> Sequential l2 -> Sequential (l1 ++ l2).
Proof.
  induction 1 as [ | c r rest _ IH | c e rest _ IH | ev rest Hev _ IH]; intros H2; simpl.
  - exact H2.
  - apply Seq_resolved, IH, H2.
  - apply Seq_rejected, IH, H2.
  - apply Seq_local; [exact Hev | apply IH, H2].
Qed.

Lemma Orderly_ret {A} (a : A) : Orderly (ret a).
Proof. intros s Hs. exact Hs. Qed.

Lemma Orderly_throw {A} (e : Thrown) : Orderly (@throw A e).
Proof. intros s Hs. exact Hs. Qed.

Lemma Orderly_emit ev : is_local ev = true -> Orderly (emit ev).
Proof.
  intros Hev s Hs. simpl. apply Sequential_app; [exact Hs | ].
  apply Seq_local; [exact Hev | constructor].
Qed.

Lemma Orderly_await {R} c inj (answer : nat -> Outcome R) : Orderly (await c inj answer).
Proof.
  intros s Hs. simpl. apply Sequential_app; [exact Hs | ].
  destruct (answer (ticks s)); simpl; constructor; constructor.
Qed.

Lemma Orderly_bind {A B} (m : Async A) (k : A -> Async B) :
  Orderly m -> (forall a, Orderly (k a)) -> Orderly (bind m k).
Proof.
  intros Hm Hk s Hs. unfold bind.
  specialize (Hm s Hs). destruct (m s) as [[a | e] s']; simpl in *.
  - apply Hk, Hm.
  - exact Hm.
Qed.

Lemma Orderly_try_catch {A} (body : Async A) (handler : Thrown -> Async A) :
  Orderly body -> (forall e, Orderly (handler e)) -> Orderly (try_catch body handler).
Proof.
  intros Hb Hh s Hs. unfold try_catch.
  specialize (Hb s Hs). destruct (body s) as [[a | e] s']; simpl in *.
  - exact Hb.
  - apply Hh, Hb.
Qed.

Create HintDb orderly.
#[local] Hint Resolve Orderly_ret Orderly_throw Orderly_await : orderly.
#[local] Hint Extern 1 (Orderly (emit _)) => apply Orderly_emit; reflexivity : orderly.
#[local] Hint Extern 2 (Orderly (bind _ _)) => apply Orderly_bind; [ | intros ] : orderly.
#[local] Hint Extern 2 (Orderly (try_catch _ _)) =>
  apply Orderly_try_catch; [ | intros ] : orderly.
#[local] Hint Extern 3 (Orderly (match ?x with _ => _ end)) => destruct x : orderly.

Lemma Orderly_checkForProhibitedContent env cfg text :
  Orderly (PostForm.checkForProhibitedContent env cfg text).
Proof.
  unfold PostForm.checkForProhibitedContent, PostForm.toast. auto 10 with orderly.
Qed.

Lemma Orderly_updateUserFlag env cfg userId :
  Orderly (PostForm.updateUserFlag env cfg userId).
Proof.
  unfold PostForm.updateUserFlag, PostForm.toast. auto 10 with orderly.
Qed.

Lemma Orderly_uploadFile env cfg f :
  Orderly (PostForm.uploadFile env cfg f).
Proof.
  unfold PostForm.uploadFile, PostForm.toast. auto 10 with orderly.
Qed.

#[local] Hint Resolve Orderly_checkForProhibitedContent Orderly_updateUserFlag
  Orderly_uploadFile : orderly.

Lemma Orderly_handleSubmit env cfg props user value :
  Orderly (PostForm.handleSubmit env cfg props user value).
Proof.
  unfold PostForm.handleSubmit, PostForm.toast, PostForm.navigate.
  auto 20 with orderly.
Qed.

(** C8: in every submission the external calls are made one at a time,
    each settled before the next starts, in the order: caption check, then
    (only if the caption was flagged) the user-flag update, then (only if a
    file is selected) the upload, then the post create or update (which is
    skipped only when the upload failed). *)
Theorem handleSubmit_calls_in_sequence :
  forall env cfg props user value,
    let tr := trace_of (PostForm.handleSubmit env cfg props user value) in
    Sequential tr /\
    exists flagged upload_ok,
      result_of (PostForm.checkForProhibitedContent env cfg (caption value))
        = Returned flagged /\
      map step_of (calls_of tr)
        = map Some (stages flagged (has_file value) upload_ok) /\
      (upload_ok = false <->
       exists bucket fid f e, In (Rejected (StorageCreateFile bucket fid f) e) tr).
Proof.
  intros env cfg props user value tr. subst tr. split.
  - apply (Orderly_handleSubmit env cfg props user value start). constructor.
  - unfold has_file, stages.
    run_of (PostForm.checkForProhibitedContent env cfg (caption value));
    run_of (PostForm.handleSubmit env cfg props user value);
      eexists;
      first
        [ exists true; split; [reflexivity | split; [reflexivity | ]];
          split; [discriminate | intros (b & i & f1 & e1 & H); pick_event H]
        | exists false; split; [reflexivity | split; [reflexivity | ]];
          split; [intros _; do 4 eexists; found | reflexivity] ].
Qed.

(** C8, the claim as written, fails: the post write is not always the
    last call.  With a flagged caption, a selected photo and the storage
    service out of order, the submission checks the caption, requests the
    user's flag and tries the upload; it then throws, and neither
    [createPost] nor [updatePost] is called. *)
Lemma upload_failure_skips_post_write :
  map step_of (calls_of (trace_of flagged_submission_while_storage_down))
    = [Some Moderation; Some UserFlagUpdate; Some FileUpload] /\
  existsb (fun c => match step_of c with Some PostWrite => true | _ => false end)
    (calls_of (trace_of flagged_submission_while_storage_down)) = false /\
  result_of flagged_submission_while_storage_down = Threw (ErrorObject "network error").
Proof. repeat split. Qed.

(** C2 as the code has it: [checkForProhibitedContent] runs to completion
    first, making only the moderation call, and everything else of the
    submission comes after it; a flagged caption makes [handleSubmit]
    request the user's flag, and the post is still written (created or
    updated) unless the upload of a selected file fails. *)
Theorem caption_checked_first_post_not_blocked :
  forall env cfg props user value,
    let check := PostForm.checkForProhibitedContent env cfg (caption value) in
    let tr := trace_of (PostForm.handleSubmit env cfg props user value) in
    (exists rest, tr = trace_of check ++ rest /\
                  forall c, In (Started c) rest -> step_of c <> Some Moderation) /\
    (forall c, In (Started c) (trace_of check) -> step_of c = Some Moderation) /\
    (result_of check = Returned true ->
     In (Started (DbUpdateDocument (VITE_APPWRITE_DB_ID cfg) "Users" (user_dollar_id user)
                    flag_true)) tr /\
     ((exists c, In (Started c) tr /\ step_of c = Some PostWrite) \/
      (exists c e, In (Rejected c e) tr /\ step_of c = Some FileUpload))).
Proof.
  intros env cfg props user value check tr. subst check tr.
  run_of (PostForm.checkForProhibitedContent env cfg (caption value));
    run_of (PostForm.handleSubmit env cfg props user value).
  all: split; [eexists; split; [simpl; reflexivity | ];
               intros c H; pick_event H; discriminate | ].
  all: split; [intros c H; pick_event H; reflexivity | ].
  all: intros Hres; try discriminate Hres.
  all: split; [found | ].
  all: first [ left; eexists; split; [found_again | reflexivity]
             | right; do 2 eexists; split; [found_again | reflexivity] ].
Qed.

(** C2, the claim as written, fails: a caption that the check flags is
    posted all the same. *)
Lemma flagged_post_is_still_created :
  result_of (PostForm.checkForProhibitedContent
               (services 0.25 [drug_match] nothing_unflagged) cfg0
               "weed for sale") = Returned true /\
  In (Started (CreatePost {| new_value := caption_only "weed for sale";
                             new_userId := "alice";
                             new_imageId := None |}))
     (trace_of flagged_submission) /\
  result_of flagged_submission = Returned tt.
Proof.
  split; [reflexivity | split; [ | reflexivity]].
  vm_compute. do 4 right. left. reflexivity.
Qed.

(** ** What happens to the errors of the services (C4) *)

(** C4, the claim as written, fails: when the storage service rejects the
    upload, [handleSubmit] shows a toast and then throws the error on to
    its caller; no post is written. *)
Lemma handleSubmit_rethrows_upload_error :
  result_of submission_while_storage_down = Threw (ErrorObject "network error") /\
  In (Toast "File upload failed." (Some "network error"))
     (trace_of submission_while_storage_down) /\
  map step_of (calls_of (trace_of submission_while_storage_down))
    = [Some Moderation; Some FileUpload].
Proof.
  split; [reflexivity | split; [ | reflexivity]].
  vm_compute. do 4 right. left. reflexivity.
Qed.

(** C4 as the code has it.  Every error of a service call made by a drop
    handler is caught and written to the console, and a drop handler
    throws only if [convertFileToUrl] does, before any service is called.
    In [handleSubmit] an error of the caption check or of the user-flag
    update is caught and shown as a toast; an error of the upload is shown
    as a toast and thrown again; an error of [createPost] or [updatePost]
    is not caught.  [handleSubmit] throws exactly such an upload or
    post-write error. *)
Theorem service_errors_reported_or_rethrown :
  forall env cfg,
    (forall inv c e,
       In (Rejected c e) (trace_of (handle env cfg inv)) ->
       match inv with
       | SubmitPostForm _ _ _ =>
           match step_of c with
           | Some Moderation =>
               In (Toast "Content check failed" (Some (message_or "Unknown error" e)))
                  (trace_of (handle env cfg inv))
           | Some UserFlagUpdate =>
               In (Toast "User flag update failed" (Some (message_or "Unknown error" e)))
                  (trace_of (handle env cfg inv))
           | Some FileUpload =>
               In (Toast "File upload failed." (Some (message_or "File upload failed." e)))
                  (trace_of (handle env cfg inv)) /\
               result_of (handle env cfg inv) = Threw e
           | Some PostWrite => result_of (handle env cfg inv) = Threw e
           | None => False
           end
       | _ =>
           exists label,
             In (ConsoleError label (LogThrown e)) (trace_of (handle env cfg inv))
       end) /\
    (forall inv e,
       result_of (handle env cfg inv) = Threw e ->
       match inv with
       | DropOnFileUploader _ files | DropOnPart000 files =>
           convertFileToUrl env (hd_error files) = Threw e /\
           calls_of (trace_of (handle env cfg inv)) = []
       | SubmitPostForm _ _ _ =>
           exists c, In (Rejected c e) (trace_of (handle env cfg inv)) /\
                     (step_of c = Some FileUpload \/ step_of c = Some PostWrite)
       end).
Proof.
  intros env cfg. split.
  - intros inv c e H.
    destruct inv as [props files | files | props user value]; simpl in H |- *.
    + run; pick_event H; eexists; found.
    + run; pick_event H; eexists; found.
    + run; pick_event H; simpl; try (split; [ | reflexivity]);
        first [reflexivity | found].
  - intros inv e H.
    destruct inv as [props files | files | props user value]; simpl in H |- *.
    + run; try discriminate H; injection H as <-; split; first [assumption | reflexivity].
    + run; try discriminate H; injection H as <-; split; first [assumption | reflexivity].
    + run; try discriminate H; injection H as <-;
        eexists; (split; [found_again | ]);
        first [left; reflexivity | right; reflexivity].
Qed.

(** ** The confidence threshold (C1) and the documents flagged (C3) *)








(** * Further properties of the handlers *)

(** ** The pipeline of a drop *)

Lemma Orderly_lift {A} (o : Outcome A) : Orderly (lift o).
Proof. intros s Hs. exact Hs. Qed.

Lemma Orderly_now : Orderly now.
Proof. intros s Hs. exact Hs. Qed.

#[local] Hint Resolve Orderly_lift Orderly_now : orderly.






(** ** What a drop sends, and what it does to the component *)



(** X4: a drop first hands the accepted files to the component and to the
    form ([setFile], [fieldChange]) and shows the local preview URL, before
    any service is called and whatever the services then answer; the
    preview is never replaced by the remote URL, and the handler returns
    normally.  If [convertFileToUrl] throws, the files have already been
    handed over, nothing else happens and the error leaves the handler. *)
Theorem drop_component_state :
  forall env cfg u files,
    let tr := trace_of (drop env cfg u files) in
    match convertFileToUrl env (hd_error files) with
    | Returned url =>
        firstn 3 tr = [SetFile files; FieldChange files; SetFileUrl url] /\
        filter is_state_change tr = [SetFile files; FieldChange files; SetFileUrl url] /\
        result_of (drop env cfg u files) = Returned tt
    | Threw e =>
        tr = [SetFile files; FieldChange files] /\
        result_of (drop env cfg u files) = Threw e
    end.
Proof.
  intros env cfg u files tr. subst tr.
  destruct u as [props | ]; simpl; run; repeat split; reflexivity.
Qed.

(** X5: a drop whose [convertFileToUrl] returned makes exactly one upload,
    into the configured bucket: of the first accepted file only, however
    many were dropped, and of no file at all ([undefined]) when the drop
    is empty; FileUploader.tsx asks for a generated id, the older uploader
    passes the literal "unique()".  A drop whose [convertFileToUrl] threw
    uploads nothing. *)
Theorem drop_uploads_first_file_only :
  forall env cfg u files,
    let tr := trace_of (drop env cfg u files) in
    match convertFileToUrl env (hd_error files) with
    | Returned _ =>
        filter is_upload (calls_of tr)
          = [StorageCreateFile (VITE_APPWRITE_STORAGE_ID cfg)
               match u with Current _ => ID_unique env 0 | Older => "unique()" end
               (hd_error files)]
    | Threw _ => calls_of tr = []
    end.
Proof.
  intros env cfg u files tr. subst tr.
  destruct u as [props | ]; simpl; run; reflexivity.
Qed.

Example two_files_dropped_one_uploaded :
  filter is_upload (calls_of (trace_of (drop all_fine cfg0 Older [photo; second_photo])))
    = [StorageCreateFile "bucket" "unique()" (Some photo)].
Proof. reflexivity. Qed.

Example empty_drop_uploads_undefined :
  filter is_upload (calls_of (trace_of (drop all_fine cfg0 (Current as_alice) [])))
    = [StorageCreateFile "bucket" "fresh" None].
Proof. reflexivity. Qed.

(** X15: a drop writes to the console only when a service call was
    rejected, and what it writes is that error; the "Error details:" line
    with the error's message is written by FileUploader.tsx only, and only
    for an [Error] object. *)
Theorem drop_console_errors_report_rejections :
  forall env cfg u files label arg,
    In (ConsoleError label arg) (trace_of (drop env cfg u files)) ->
    exists c e,
      In (Rejected c e) (trace_of (drop env cfg u files)) /\
      match arg with
      | LogThrown e' => e' = e
      | LogText m => e = ErrorObject m /\ exists props, u = Current props
      end.
Proof.
  intros env cfg u files label arg H.
  destruct u as [props | ]; simpl in H |- *;
    run; pick_event H; do 2 eexists; (split; [found | ]);
    first [reflexivity | split; [reflexivity | eexists; reflexivity]].
Qed.

Lemma drop_console_errors_report_rejections_witness :
  In (ConsoleError "Error details:" (LogText "document not found"))
     (trace_of (drop (database_rejects_writes (services 0.75 [] unflagged)) cfg0
                  (Current as_alice) [photo])) /\
  exists c e,
    In (Rejected c e)
       (trace_of (drop (database_rejects_writes (services 0.75 [] unflagged)) cfg0
                    (Current as_alice) [photo])) /\
    (e = ErrorObject "document not found" /\ exists props, Current as_alice = Current props).
Proof.
  assert (H : In (ConsoleError "Error details:" (LogText "document not found"))
                (trace_of (drop (database_rejects_writes (services 0.75 [] unflagged)) cfg0
                             (Current as_alice) [photo])))
    by (vm_compute; do 12 right; left; reflexivity).
  split; [exact H | ].
  exact (drop_console_errors_report_rejections
           (database_rejects_writes (services 0.75 [] unflagged)) cfg0
           (Current as_alice) [photo] _ _ H).
Defined.

(** ** [updateAppwriteFlags] on its own *)



(** ** What a submission sends *)

(** X6: a submission uploads only the first of the selected files, under
    the id "unique()", into the configured bucket; with no file selected
    it uploads nothing. *)
Theorem handleSubmit_uploads_first_file :
  forall env cfg props user value bucket fid f,
    In (Started (StorageCreateFile bucket fid f))
       (trace_of (PostForm.handleSubmit env cfg props user value)) ->
    bucket = VITE_APPWRITE_STORAGE_ID cfg /\
    fid = "unique()" /\
    f = hd_error (file value) /\
    file value <> [].
Proof.
  intros env cfg props user value bucket fid f H.
  run; pick_event H; repeat split; first [reflexivity | discriminate].
Qed.

Lemma handleSubmit_uploads_first_file_witness :
  In (Started (StorageCreateFile "bucket" "unique()" (Some photo)))
     (trace_of (PostForm.handleSubmit all_fine cfg0 new_post_form alice
                  submission_with_photo)) /\
  ("bucket" = VITE_APPWRITE_STORAGE_ID cfg0 /\
   "unique()" = "unique()" /\
   Some photo = hd_error (file submission_with_photo) /\
   file submission_with_photo <> []).
Proof.
  assert (H : In (Started (StorageCreateFile "bucket" "unique()" (Some photo)))
                (trace_of (PostForm.handleSubmit all_fine cfg0 new_post_form alice
                             submission_with_photo)))
    by (vm_compute; do 2 right; left; reflexivity).
  split; [exact H | ].
  exact (handleSubmit_uploads_first_file all_fine cfg0 new_post_form alice
           submission_with_photo _ _ _ H).
Defined.

(** X7: when an existing post is edited with a new file, [updatePost]
    receives the id of the uploaded file as [imageId] (or the post's old
    [imageId] if that id is the empty string), but still the post's old
    [imageUrl]: the URL is not rebuilt for the new file. *)
Theorem update_with_new_file_keeps_old_url :
  forall env cfg p user value bucket fid f stored,
    In (Resolved (StorageCreateFile bucket fid f) (FileReply stored))
       (trace_of (PostForm.handleSubmit env cfg
                    {| PostForm.post := Some p; PostForm.action := Update |} user value)) ->
    In (Started (UpdatePost {| upd_value := value;
                               upd_postId := post_id p;
                               upd_imageId := if String.eqb (file_id stored) ""
                                              then post_imageId p
                                              else file_id stored;
                               upd_imageUrl := post_imageUrl p |}))
       (trace_of (PostForm.handleSubmit env cfg
                    {| PostForm.post := Some p; PostForm.action := Update |} user value)).
Proof.
  intros env cfg p user value bucket fid f stored H.
  run; pick_event H;
    repeat match goal with
           | E : (_ =? _)%string = _ |- _ => rewrite E
           end;
    found.
Qed.

Lemma update_with_new_file_keeps_old_url_witness :
  In (Resolved (StorageCreateFile "bucket" "unique()" (Some photo))
        (FileReply {| file_id := "f1" |}))
     (trace_of (PostForm.handleSubmit all_fine cfg0 edit_post_form alice
                  submission_with_photo)) /\
  In (Started (UpdatePost {| upd_value := submission_with_photo;
                             upd_postId := "p1";
                             upd_imageId := "f1";
                             upd_imageUrl := "https://cdn/img-old" |}))
     (trace_of (PostForm.handleSubmit all_fine cfg0 edit_post_form alice
                  submission_with_photo)).
Proof.
  assert (H : In (Resolved (StorageCreateFile "bucket" "unique()" (Some photo))
                    (FileReply {| file_id := "f1" |}))
                (trace_of (PostForm.handleSubmit all_fine cfg0 edit_post_form alice
                             submission_with_photo)))
    by (vm_compute; do 3 right; left; reflexivity).
  split; [exact H | ].
  exact (update_with_new_file_keeps_old_url all_fine cfg0 old_post alice
           submission_with_photo _ _ _ _ H).
Defined.

(** X8: unless the form has a post and is in Update mode, a submission
    creates: it never calls [updatePost], and [createPost] receives the
    form's values unchanged, the submitting user's id, and as [imageId]
    the id of the uploaded file, or nothing when no file was selected.  A
    form in Update mode without a post creates as well. *)
Theorem create_path_payload :
  forall env cfg props user value,
    PostForm.post props = None \/ PostForm.action props = Create ->
    let tr := trace_of (PostForm.handleSubmit env cfg props user value) in
    (forall payload, ~ In (Started (UpdatePost payload)) tr) /\
    (forall payload,
       In (Started (CreatePost payload)) tr ->
       new_value payload = value /\
       new_userId payload = user_dollar_id user /\
       (file value = [] -> new_imageId payload = None) /\
       (forall bucket fid f stored,
          In (Resolved (StorageCreateFile bucket fid f) (FileReply stored)) tr ->
          new_imageId payload = Some (file_id stored))) /\
    (file value = [] -> exists payload, In (Started (CreatePost payload)) tr).
Proof.
  intros env cfg props user value Hmode tr. subst tr.
  run; try (destruct Hmode; discriminate).
  all: split; [intros payload H; pick_event H | ].
  all: split;
    [ intros payload H; pick_event H;
      (split; [reflexivity | split; [reflexivity | split;
         [ intros Hf; first [reflexivity | discriminate Hf]
         | intros ? ? ? ? Hs; pick_event Hs; reflexivity ]]])
    | intros Hf; first [discriminate Hf | eexists; found] ].
Qed.

Lemma create_path_payload_witness :
  (PostForm.post update_form_without_post = None \/
   PostForm.action update_form_without_post = Create) /\
  (file (caption_only "hello") = [] ->
   exists payload,
     In (Started (CreatePost payload))
        (trace_of (PostForm.handleSubmit all_fine cfg0 update_form_without_post alice
                     (caption_only "hello")))).
Proof.
  split; [left; reflexivity | ].
  exact (proj2 (proj2 (create_path_payload all_fine cfg0 update_form_without_post alice
                         (caption_only "hello") (or_introl eq_refl)))).
Defined.

(** ** What a submission shows *)

(** X9: a submission that returns ends with exactly one navigation, to the
    post's page when an existing post was updated and to the home page
    otherwise; this holds also when the mutation reported a failure.  A
    submission that throws does not navigate. *)
Theorem handleSubmit_navigation :
  forall env cfg props user value,
    let tr := trace_of (PostForm.handleSubmit env cfg props user value) in
    match result_of (PostForm.handleSubmit env cfg props user value) with
    | Returned _ =>
        last tr (Toast "" None)
          = Navigate (match PostForm.post props, PostForm.action props with
                      | Some p, Update => "/posts/" ++ post_id p
                      | _, _ => "/"
                      end) /\
        length (filter is_navigate tr) = 1
    | Threw _ => filter is_navigate tr = []
    end.
Proof.
  intros env cfg props user value tr. subst tr.
  run; first [split; reflexivity | reflexivity].
Qed.

(** X10: a submission shows a toast only when something went wrong: a
    call was rejected, or [createPost]/[updatePost] returned nothing, or
    the moderation answer had no [drug] member. *)
Theorem handleSubmit_toasts_only_on_trouble :
  forall env cfg props user value title description,
    In (Toast title description)
       (trace_of (PostForm.handleSubmit env cfg props user value)) ->
    (exists c e, In (Rejected c e)
                    (trace_of (PostForm.handleSubmit env cfg props user value))) \/
    (exists c, In (Resolved c (PostReply None))
                  (trace_of (PostForm.handleSubmit env cfg props user value))) \/
    (exists c r, In (Resolved c (TextReply r))
                    (trace_of (PostForm.handleSubmit env cfg props user value)) /\
                 drug r = None).
Proof.
  intros env cfg props user value title description H.
  run; pick_event H;
    first [ left; do 2 eexists; found
          | right; left; eexists; found
          | right; right; do 2 eexists; split; [found | assumption] ].
Qed.

Lemma handleSubmit_toasts_only_on_trouble_witness :
  In (Toast "File upload failed." (Some "network error"))
     (trace_of submission_while_storage_down) /\
  ((exists c e, In (Rejected c e) (trace_of submission_while_storage_down)) \/
   (exists c, In (Resolved c (PostReply None)) (trace_of submission_while_storage_down)) \/
   (exists c r, In (Resolved c (TextReply r)) (trace_of submission_while_storage_down) /\
                drug r = None)).
Proof.
  assert (H : In (Toast "File upload failed." (Some "network error"))
                (trace_of submission_while_storage_down))
    by (vm_compute; do 4 right; left; reflexivity).
  split; [exact H | ].
  exact (handleSubmit_toasts_only_on_trouble
           (storage_down (services 0.25 [] nothing_unflagged)) cfg0 new_post_form alice
           submission_with_photo _ _ H).
Defined.

(** X17: the toast "<action> post failed. Please try again." is shown
    exactly when a submission's [createPost] or [updatePost] returned
    nothing. *)
Theorem post_failed_toast_iff_nothing_returned :
  forall env cfg props user value,
    let tr := trace_of (PostForm.handleSubmit env cfg props user value) in
    In (Toast (action_name (PostForm.action props) ++ " post failed. Please try again.") None)
       tr
    <-> exists c, In (Resolved c (PostReply None)) tr.
Proof.
  intros env cfg props user value tr. subst tr.
  run; (split; [intros H; first [eexists; found | pick_event H]
              | intros (c & H); first [found | pick_event H]]).
Qed.

(** X11: a moderation answer without a [drug] member is handled like a
    failed request: [checkForProhibitedContent] shows the "Content check
    failed" toast and returns [false]. *)
Theorem missing_drug_member_assumes_false :
  forall env cfg text url form response,
    In (Resolved (AxiosPostForm url form) (TextReply response))
       (trace_of (PostForm.checkForProhibitedContent env cfg text)) ->
    drug response = None ->
    result_of (PostForm.checkForProhibitedContent env cfg text) = Returned false /\
    exists description,
      In (Toast "Content check failed" (Some description))
         (trace_of (PostForm.checkForProhibitedContent env cfg text)).
Proof.
  intros env cfg text url form response H Hdrug.
  run; pick_event H; try congruence; (split; [reflexivity | eexists; found]).
Qed.

Lemma missing_drug_member_assumes_false_witness :
  In (Resolved (AxiosPostForm PostForm.MODERATION_URL (moderation_form cfg0 "hello"))
        (TextReply {| status := "success"; drug := None |}))
     (trace_of (PostForm.checkForProhibitedContent (moderation_without_drug all_fine)
                  cfg0 "hello")) /\
  result_of (PostForm.checkForProhibitedContent (moderation_without_drug all_fine)
               cfg0 "hello") = Returned false.
Proof.
  assert (H : In (Resolved (AxiosPostForm PostForm.MODERATION_URL
                              (moderation_form cfg0 "hello"))
                    (TextReply {| status := "success"; drug := None |}))
                (trace_of (PostForm.checkForProhibitedContent
                             (moderation_without_drug all_fine) cfg0 "hello")))
    by (vm_compute; right; left; reflexivity).
  split; [exact H | ].
  exact (proj1 (missing_drug_member_assumes_false (moderation_without_drug all_fine)
                  cfg0 "hello" _ _ _ H eq_refl)).
Defined.

(** X12: a failed caption check does not hold the post back: when the
    moderation request is rejected the submission still writes the post,
    unless the upload of a selected file fails. *)
Theorem moderation_failure_does_not_block_post :
  forall env cfg props user value url form e,
    In (Rejected (AxiosPostForm url form) e)
       (trace_of (PostForm.handleSubmit env cfg props user value)) ->
    (exists c, In (Started c) (trace_of (PostForm.handleSubmit env cfg props user value)) /\
               step_of c = Some PostWrite) \/
    (exists c e', In (Rejected c e')
                     (trace_of (PostForm.handleSubmit env cfg props user value)) /\
                  step_of c = Some FileUpload).
Proof.
  intros env cfg props user value url form e H.
  run; pick_event H;
    first [ left; eexists; split; [found_again | reflexivity]
          | right; do 2 eexists; split; [found_again | reflexivity] ].
Qed.

Lemma moderation_failure_does_not_block_post_witness :
  In (Rejected (AxiosPostForm PostForm.MODERATION_URL (moderation_form cfg0 "weed for sale"))
        (ErrorObject "timeout"))
     (trace_of submission_while_moderation_down) /\
  ((exists c, In (Started c) (trace_of submission_while_moderation_down) /\
              step_of c = Some PostWrite) \/
   (exists c e', In (Rejected c e') (trace_of submission_while_moderation_down) /\
                 step_of c = Some FileUpload)).
Proof.
  assert (H : In (Rejected (AxiosPostForm PostForm.MODERATION_URL
                              (moderation_form cfg0 "weed for sale"))
                    (ErrorObject "timeout"))
                (trace_of submission_while_moderation_down))
    by (vm_compute; right; left; reflexivity).
  split; [exact H | ].
  exact (moderation_failure_does_not_block_post
           (moderation_down (services 0.25 [drug_match] nothing_unflagged)) cfg0
           new_post_form alice (caption_only "weed for sale") _ _ _ H).
Defined.

(** X16: a submission updates at most one document: the submitting user's
    document in the collection "Users" of the database named by
    VITE_APPWRITE_DB_ID, with [{ flag: true }], and exactly when the
    caption check returned [true]. *)
Theorem handleSubmit_flags_only_the_submitter :
  forall env cfg props user value,
    let tr := trace_of (PostForm.handleSubmit env cfg props user value) in
    exists flagged,
      result_of (PostForm.checkForProhibitedContent env cfg (caption value))
        = Returned flagged /\
      updates_of tr
        = (if flagged then [("Users", user_dollar_id user, flag_true)] else []) /\
      (forall db coll id data,
         In (Started (DbUpdateDocument db coll id data)) tr ->
         db = VITE_APPWRITE_DB_ID cfg).
Proof.
  intros env cfg props user value tr. subst tr.
  run_of (PostForm.checkForProhibitedContent env cfg (caption value));
    run_of (PostForm.handleSubmit env cfg props user value);
    eexists; (split; [reflexivity | split; [reflexivity | ]]);
    intros db coll id data H; pick_event H; reflexivity.
Qed.
